(** * Tray controller of the traffic simulator desktop shell

    Shallow embedding of [src-tauri/src/lib.rs]: the [setup] closure that
    builds the six tray menu items, the menu and the tray icon, the
    [on_menu_event] click handler, and [run], which installs the autostart
    plugin, builds the application ([.expect]ing the result) and runs
    [setup] when the event loop starts.

    The host (Tauri) is modelled as a state monad over [St]: the open
    windows keyed by label (a [HashMap<String, _>] in the host, a [gmap]
    here), the tray icon once built, the exit request, and two logs that
    record which windows were looked up and which window or process
    operations were called.  A computation may also panic. *)

From Stdlib Require Import ZArith.
From stdpp Require Import base gmap strings list.

Open Scope Z_scope.

(** ** Host data *)

(** A webview window as the host keeps it.  [show_fails] / [hide_fails]
    stand for the platform refusing the call; [inbox] holds the events
    delivered to the window's listeners, each with its payload (the unit
    payload [()] of the source). *)
Record Window := mkWindow {
  visible : bool;
  inbox : list (string * unit);
  show_fails : bool;
  hide_fails : bool;
}.

(** [MenuItem::with_id(app, id, text, enabled, accelerator)]. *)
Record MenuItem := mkMenuItem {
  item_id : string;
  item_text : string;
  item_enabled : bool;
  item_accelerator : option string;
}.

(** [Menu::with_items(app, &[...])]: the items in order. *)
Record Menu := mkMenu { menu_items : list MenuItem }.

(** A built tray icon and the menu attached to it. *)
Record TrayIcon := mkTrayIcon { tray_menu : Menu }.

(** [tauri_plugin_autostart::MacosLauncher]. *)
Inductive MacosLauncher := LaunchAgent | AppleScript.

(** The availability of the platform APIs used at startup: whether
    [MenuItem::with_id] succeeds for a given id, whether [Menu::with_items]
    and [TrayIconBuilder::build] succeed, and the error, if any, with which
    the autostart plugin fails to initialize. *)
Record Platform := mkPlatform {
  menu_item_ok : string -> bool;
  menu_ok : bool;
  tray_ok : bool;
  plugin_error : option string;
}.

(** Window and process operations called on the host, in call order. *)
Inductive Action :=
| AShow (label : string)
| AHide (label : string)
| AEmit (label : string) (event : string)
| AExit (code : Z).

Record St := mkSt {
  platform : Platform;
  windows : gmap string Window;
  autostart_plugin : option MacosLauncher;
  tray : option TrayIcon;
  exit_code : option Z;
  lookups : list string;
  actions : list Action;
}.

(** Errors returned by host calls ([tauri::Error]); the [Box<dyn Error>]
    of [setup] carries its message. *)
Inductive HostError :=
| WindowNotFound
| PlatformRefused (what : string)
| PluginInitialization (plugin cause : string).

(** The [Display] text of an error. *)
Definition host_error_msg (e : HostError) : string :=
  match e with
  | WindowNotFound => "window not found"
  | PlatformRefused w => w
  | PluginInitialization p c =>
      String.append "failed to initialize plugin `"
        (String.append p (String.append "`: " c))
  end.

(** A double quote character. *)
Definition dq : string := String.String (Ascii.ascii_of_nat 34%nat) String.EmptyString.

Definition quoted (x : string) : string := String.append dq (String.append x dq).

(** The derived [Debug] text of an error, as [{:?}] prints it. *)
Definition host_error_debug (e : HostError) : string :=
  match e with
  | WindowNotFound => "WindowNotFound"
  | PlatformRefused w => String.append "PlatformRefused(" (String.append (quoted w) ")")
  | PluginInitialization p c =>
      String.append "PluginInitialization("
        (String.append (quoted p) (String.append ", " (String.append (quoted c) ")")))
  end.

(** ** The host monad *)

Inductive Outcome (A : Type) :=
| Done (a : A) (s : St)
| Panicked (msg : string).
Arguments Done {A} a s.
Arguments Panicked {A} msg.

Definition Host (A : Type) := St -> Outcome A.

Definition ret {A} (a : A) : Host A := fun s => Done a s.

Definition bind {A B} (m : Host A) (k : A -> Host B) : Host B :=
  fun s => match m s with
           | Done a s' => k a s'
           | Panicked msg => Panicked msg
           end.

Notation "x <- m ;; k" := (bind m (fun x => k))
  (at level 95, m at next level, right associativity).

Definition get : Host St := fun s => Done s s.
Definition put (s : St) : Host unit := fun _ => Done tt s.

Definition panic {A} (msg : string) : Host A := fun _ => Panicked msg.

(** [result] of the host calls, and Rust's [?] on it. *)
Definition try_bind {A B} (m : Host (A + HostError))
    (k : A -> Host (B + HostError)) : Host (B + HostError) :=
  r <- m ;;
  match r with
  | inl a => k a
  | inr e => ret (inr e)
  end.

Notation "x <-? m ;; k" := (try_bind m (fun x => k))
  (at level 95, m at next level, right associativity).

Definition set_windows (ws : gmap string Window) (s : St) : St :=
  mkSt (platform s) ws (autostart_plugin s) (tray s) (exit_code s)
       (lookups s) (actions s).

Definition log_lookup (l : string) (s : St) : St :=
  mkSt (platform s) (windows s) (autostart_plugin s) (tray s) (exit_code s)
       (lookups s ++ [l]) (actions s).

Definition log_action (a : Action) (s : St) : St :=
  mkSt (platform s) (windows s) (autostart_plugin s) (tray s) (exit_code s)
       (lookups s) (actions s ++ [a]).

Definition set_exit (c : Z) (s : St) : St :=
  mkSt (platform s) (windows s) (autostart_plugin s) (tray s) (Some c)
       (lookups s) (actions s).

Definition set_tray (t : TrayIcon) (s : St) : St :=
  mkSt (platform s) (windows s) (autostart_plugin s) (Some t) (exit_code s)
       (lookups s) (actions s).

Definition set_plugin (p : MacosLauncher) (s : St) : St :=
  mkSt (platform s) (windows s) (Some p) (tray s) (exit_code s)
       (lookups s) (actions s).

(** ** Host API *)

(** A [WebviewWindow] handle: the window's label. *)
Abbreviation WebviewWindow := string (only parsing).

(** [app.get_webview_window(label)]: [Some] handle when a window with this
    label is open. *)
Definition get_webview_window (label : string) : Host (option WebviewWindow) :=
  fun s =>
    let s' := log_lookup label s in
    match windows s !! label with
    | Some _ => Done (Some label) s'
    | None => Done None s'
    end.

(** [window.show()]: one call, which either makes the window visible or
    fails without changing it. *)
Definition window_show (w : WebviewWindow) : Host (unit + HostError) :=
  fun s =>
    let s1 := log_action (AShow w) s in
    match windows s !! w with
    | None => Done (inr WindowNotFound) s1
    | Some win =>
        if show_fails win then Done (inr (PlatformRefused "show")) s1
        else Done (inl tt)
               (set_windows (<[w := mkWindow true (inbox win) (show_fails win)
                                      (hide_fails win)]> (windows s)) s1)
    end.

(** [window.hide()]. *)
Definition window_hide (w : WebviewWindow) : Host (unit + HostError) :=
  fun s =>
    let s1 := log_action (AHide w) s in
    match windows s !! w with
    | None => Done (inr WindowNotFound) s1
    | Some win =>
        if hide_fails win then Done (inr (PlatformRefused "hide")) s1
        else Done (inl tt)
               (set_windows (<[w := mkWindow false (inbox win) (show_fails win)
                                      (hide_fails win)]> (windows s)) s1)
    end.

(** Delivery of notifications to a window's listeners. *)
Definition deliver (n : list (string * unit)) (win : Window) : Window :=
  mkWindow (visible win) (inbox win ++ n) (show_fails win) (hide_fails win).

(** [window.emit(event, ())]: [Emitter::emit] emits to all targets, so
    the event with the unit payload is delivered to every open window, not
    only to the one whose handle is used ([emit_to] would target one). *)
Definition window_emit (w : WebviewWindow) (event : string) (payload : unit)
    : Host (unit + HostError) :=
  fun s =>
    Done (inl tt)
      (set_windows (deliver [(event, payload)] <$> windows s)
                   (log_action (AEmit w event) s)).

(** [app.exit(code)]: records the exit request of the process. *)
Definition app_exit (code : Z) : Host unit :=
  fun s => Done tt (set_exit code (log_action (AExit code) s)).

(** ** The click handler: the [on_menu_event] closure of [setup] *)

(** [let _ = e;]: the result of a host call is dropped. *)
Definition discard {A} (m : Host A) : Host unit := _ <- m ;; ret tt.

Definition on_menu_event (id : string) : Host unit :=
  if String.eqb id "show" then
    w <- get_webview_window "main" ;;
    match w with
    | Some window => discard (window_show window)
    | None => ret tt
    end
  else if String.eqb id "hide" then
    w <- get_webview_window "main" ;;
    match w with
    | Some window => discard (window_hide window)
    | None => ret tt
    end
  else if String.eqb id "click_through" then
    w <- get_webview_window "main" ;;
    match w with
    | Some window => discard (window_emit window "toggle-click-through" tt)
    | None => ret tt
    end
  else if String.eqb id "reset_pos" then
    w <- get_webview_window "main" ;;
    match w with
    | Some window => discard (window_emit window "reset-position" tt)
    | None => ret tt
    end
  else if String.eqb id "autostart" then
    w <- get_webview_window "main" ;;
    match w with
    | Some window => discard (window_emit window "toggle-autostart" tt)
    | None => ret tt
    end
  else if String.eqb id "quit" then
    app_exit 0
  else ret tt.

(** ** Startup: the [setup] closure *)

(** [MenuItem::with_id(app, id, text, enabled, None)]. *)
Definition menu_item_with_id (id text : string) (enabled : bool)
    (accelerator : option string) : Host (MenuItem + HostError) :=
  fun s =>
    if menu_item_ok (platform s) id
    then Done (inl (mkMenuItem id text enabled accelerator)) s
    else Done (inr (PlatformRefused "menu item")) s.

(** [Menu::with_items(app, &[...])]. *)
Definition menu_with_items (items : list MenuItem) : Host (Menu + HostError) :=
  fun s =>
    if menu_ok (platform s) then Done (inl (mkMenu items)) s
    else Done (inr (PlatformRefused "menu")) s.

(** [TrayIconBuilder::new().menu(&menu).on_menu_event(on_menu_event).build(app)]:
    the built tray icon routes the clicks on its menu to [on_menu_event]
    (see [event_loop]). *)
Definition tray_icon_build (menu : Menu) : Host (TrayIcon + HostError) :=
  fun s =>
    if tray_ok (platform s)
    then let t := mkTrayIcon menu in Done (inl t) (set_tray t s)
    else Done (inr (PlatformRefused "tray icon")) s.

Definition setup : Host (unit + HostError) :=
  show <-? menu_item_with_id "show" "Show" true None ;;
  hide <-? menu_item_with_id "hide" "Hide" true None ;;
  click_through <-?
    menu_item_with_id "click_through" "Toggle Click-Through" true None ;;
  reset_pos <-? menu_item_with_id "reset_pos" "Reset Position" true None ;;
  autostart <-? menu_item_with_id "autostart" "Start at Login" true None ;;
  quit <-? menu_item_with_id "quit" "Quit" true None ;;
  menu <-? menu_with_items [show; hide; click_through; reset_pos; autostart; quit] ;;
  _ <-? tray_icon_build menu ;;
  ret (inl tt).

(** ** The host runtime around [setup] *)

(** [tauri_plugin_autostart::init(launcher, args)]: registers the plugin. *)
Definition autostart_init (launcher : MacosLauncher) (args : option (list string))
    : Host unit :=
  fun s => Done tt (set_plugin launcher s).

(** The host event loop delivering tray menu clicks, in order, to the
    handler registered on the tray icon.  [app.exit] behaves as
    [std::process::exit]: once the exit is requested the process is gone
    and no later click is delivered. *)
Fixpoint event_loop (clicks : list string) : Host unit :=
  match clicks with
  | [] => ret tt
  | id :: rest =>
      s <- get ;;
      match exit_code s with
      | Some _ => ret tt
      | None =>
          match tray s with
          | Some _ => _ <- on_menu_event id ;; event_loop rest
          | None => event_loop rest
          end
      end
  end.

(** [Builder::build(context)]: initializes the registered plugins; an
    initialization error of the autostart plugin is returned. *)
Definition builder_build : Host (unit + HostError) :=
  fun s =>
    match autostart_plugin s, plugin_error (platform s) with
    | Some _, Some c => Done (inr (PluginInitialization "autostart" c)) s
    | _, _ => Done (inl tt) s
    end.

(** [App::run]: when the event loop is ready the setup hook runs; an
    error there panics with ["Failed to setup app: {e}"], the [Display] of
    [Error::Setup] being ["error encountered during setup hook: {cause}"].
    Then the clicks are delivered. *)
Definition app_run (clicks : list string) : Host unit :=
  r <- setup ;;
  match r with
  | inl _ => event_loop clicks
  | inr e =>
      panic (String.append "Failed to setup app: "
               (String.append "error encountered during setup hook: "
                  (host_error_msg e)))
  end.

(** [Builder::run(context)]: [build], then [App::run]; only an error of
    [build] is returned. *)
Definition builder_run (clicks : list string) : Host (unit + HostError) :=
  r <- builder_build ;;
  match r with
  | inl _ => _ <- app_run clicks ;; ret (inl tt)
  | inr e => ret (inr e)
  end.

(** [Result::expect(msg)]: panics with ["{msg}: {e:?}"]. *)
Definition expect {A} (r : A + HostError) (msg : string) : Host A :=
  match r with
  | inl a => ret a
  | inr e => panic (String.append msg (String.append ": " (host_error_debug e)))
  end.

Definition run (clicks : list string) : Host unit :=
  _ <- autostart_init LaunchAgent None ;;
  r <- builder_run clicks ;;
  expect r "error while running tauri application".

(** ** Sample states *)

Definition all_ok : Platform := mkPlatform (fun _ => true) true true None.

Definition start (p : Platform) (ws : gmap string Window) : St :=
  mkSt p ws None None None [] [].

Definition main_window : Window := mkWindow false [] false false.

Example hide_then_show :
  match run ["hide"; "show"; "reset_pos"] (start all_ok {[ "main" := main_window ]}) with
  | Done _ s => (windows s !! "main", actions s)
  | Panicked _ => (None, [])
  end
  = (Some (mkWindow true [("reset-position", tt)] false false),
     [AHide "main"; AShow "main"; AEmit "main" "reset-position"]).
Proof. reflexivity. Qed.

Example quit_stops :
  match run ["quit"; "show"] (start all_ok {[ "main" := main_window ]}) with
  | Done _ s => (exit_code s, actions s)
  | Panicked _ => (None, [])
  end
  = (Some 0, [AExit 0]).
Proof. reflexivity. Qed.

Example tray_refused :
  run ["show"] (start (mkPlatform (fun _ => true) true false None) ∅)
  = Panicked "Failed to setup app: error encountered during setup hook: tray icon".
Proof. reflexivity. Qed.

(** ** The dispatch table of the spec (section 4.1), for comparison *)

Definition fixed_ids : list string :=
  ["show"; "hide"; "click_through"; "reset_pos"; "autostart"; "quit"].

(** The one action the table documents for an identifier, given whether
    the window "main" is open. *)
Definition spec_dispatch_actions (id : string) (main : option Window) : list Action :=
  let if_found a := match main with Some _ => [a] | None => [] end in
  if String.eqb id "show" then if_found (AShow "main")
  else if String.eqb id "hide" then if_found (AHide "main")
  else if String.eqb id "click_through" then if_found (AEmit "main" "toggle-click-through")
  else if String.eqb id "reset_pos" then if_found (AEmit "main" "reset-position")
  else if String.eqb id "autostart" then if_found (AEmit "main" "toggle-autostart")
  else if String.eqb id "quit" then [AExit 0]
  else [].

Definition sample : St := start all_ok {[ "main" := main_window ]}.

Definition failing_main : Window := mkWindow false [] true true.

Definition no_tray : Platform := mkPlatform (fun _ => true) true false None.

(** "main" and a second window "about". *)
Definition two_windows : St :=
  start all_ok {[ "main" := main_window; "about" := main_window ]}.

(** The tray up and running over the sample windows. *)
Definition running : St := set_tray (mkTrayIcon (mkMenu [])) sample.

(** The tray up and running over "main" and "about". *)
Definition running_two : St := set_tray (mkTrayIcon (mkMenu [])) two_windows.

Definition running_failing : St :=
  set_tray (mkTrayIcon (mkMenu [])) (start all_ok {[ "main" := failing_main ]}).

(** ** Click sequences *)

(** The clicks the event loop hands to the handler: all of them up to and
    including the first [quit]. *)
Fixpoint upto_quit (clicks : list string) : list string :=
  match clicks with
  | [] => []
  | id :: rest => if String.eqb id "quit" then [id] else id :: upto_quit rest
  end.

(** Visibility after a sequence of clicks of a window whose [show] and
    [hide] succeed: the last [show] or [hide] decides, other clicks keep
    it. *)
Fixpoint visibility_after (clicks : list string) (v : bool) : bool :=
  match clicks with
  | [] => v
  | id :: rest =>
      visibility_after rest
        (if String.eqb id "show" then true
         else if String.eqb id "hide" then false else v)
  end.

(** The notification, with its unit payload, that a click emits to
    "main". *)
Definition notification_of (id : string) : list (string * unit) :=
  if String.eqb id "click_through" then [("toggle-click-through", tt)]
  else if String.eqb id "reset_pos" then [("reset-position", tt)]
  else if String.eqb id "autostart" then [("toggle-autostart", tt)]
  else [].

(** The notification a click broadcasts to all windows: the click's
    notification when "main" is open, none otherwise. *)
Definition broadcast_of (id : string) (main : option Window) : list (string * unit) :=
  match main with
  | Some _ => notification_of id
  | None => []
  end.

(** What one click does to the window "main", when it is open. *)
Definition main_step (id : string) (mw : option Window) : option Window :=
  match mw with
  | None => None
  | Some w =>
      Some (if String.eqb id "show" then
              if show_fails w then w
              else mkWindow true (inbox w) (show_fails w) (hide_fails w)
            else if String.eqb id "hide" then
              if hide_fails w then w
              else mkWindow false (inbox w) (show_fails w) (hide_fails w)
            else match notification_of id with
                 | [] => w
                 | n => mkWindow (visible w) (inbox w ++ n) (show_fails w)
                          (hide_fails w)
                 end)
  end.

(** ** Proofs *)

Lemma deliver_nil (w : Window) : deliver [] w = w.
Proof. destruct w; unfold deliver; cbn; by rewrite app_nil_r. Qed.

Lemma deliver_nil_fmap (mw : option Window) : deliver [] <$> mw = mw.
Proof. destruct mw; cbn; by rewrite ?deliver_nil. Qed.

Lemma deliver_app (n1 n2 : list (string * unit)) (w : Window) :
  deliver n2 (deliver n1 w) = deliver (n1 ++ n2) w.
Proof. unfold deliver; cbn. by rewrite app_assoc. Qed.

Ltac unfold_host :=
  unfold on_menu_event, discard, bind, ret, get_webview_window, window_show,
    window_hide, window_emit, app_exit, log_lookup, log_action, set_windows,
    set_exit in *.

(** Run a handler arm once the lookup of "main" is known. *)
Ltac with_main H := unfold_host; cbn; repeat (rewrite H; cbn).

(** [x = y ++ ?l]: the new entries appended by a call. *)
Ltac app_tail :=
  match goal with
  | |- ?x = ?y ++ ?l =>
      first [ reflexivity | unify l (@nil Action); by rewrite app_nil_r
            | unify l (@nil string); by rewrite app_nil_r ]
  end.

Ltac dispatch_cases :=
  unfold_host; repeat (case_match; simplify_eq/=).

(** The click handler never panics, and leaves the platform, the plugin
    registration and the tray icon (with its menu) as they were. *)
Lemma on_menu_event_frame (id : string) (s : St) :
  exists s', on_menu_event id s = Done tt s' /\
    platform s' = platform s /\ autostart_plugin s' = autostart_plugin s /\
    tray s' = tray s.
Proof. dispatch_cases; eauto 10. Qed.

Lemma event_loop_exited (clicks : list string) (s : St) (c : Z) :
  exit_code s = Some c -> event_loop clicks s = Done tt s.
Proof. intros H; destruct clicks; simpl; unfold bind, get, ret; by rewrite ?H. Qed.

Lemma event_loop_tray (clicks : list string) (s s' : St) :
  event_loop clicks s = Done tt s' -> tray s' = tray s.
Proof.
  revert s; induction clicks as [|id rest IH]; intros s Hrun; simpl in Hrun.
  - unfold ret in Hrun; by simplify_eq.
  - unfold bind, get, ret in Hrun.
    destruct (exit_code s); [by simplify_eq|].
    destruct (tray s) eqn:Ht.
    + destruct (on_menu_event_frame id s) as (s1 & Hd & _ & _ & Ht1).
      rewrite Hd in Hrun. rewrite (IH _ Hrun). congruence.
    + by rewrite (IH _ Hrun).
Qed.

Lemma event_loop_done (clicks : list string) (s : St) :
  exists s', event_loop clicks s = Done tt s'.
Proof.
  revert s; induction clicks as [|id rest IH]; intros s; simpl.
  - by eexists.
  - unfold bind, get, ret.
    destruct (exit_code s); [by eexists|].
    destruct (tray s); [|apply IH].
    destruct (on_menu_event_frame id s) as (s1 & -> & _).
    apply IH.
Qed.

Ltac eqb_to_eq :=
  repeat match goal with
  | H : String.eqb _ _ = true |- _ => apply String.eqb_eq in H; subst
  end.


(** C1: for every identifier, dispatching it performs exactly the action
    that the dispatch table documents (given whether the window "main" is
    open), and no other window or process operation. *)
Theorem dispatch_matches_table (id : string) (s : St) :
  exists s', on_menu_event id s = Done tt s' /\
    actions s' = actions s ++ spec_dispatch_actions id (windows s !! "main").
Proof.
  unfold spec_dispatch_actions; dispatch_cases;
    eexists; (split; [reflexivity|]); simpl; by rewrite ?app_nil_r.
Qed.



(** C3: once the tray icon is up and the process still running, a click
    on [quit] requests exit code 0 whatever the windows are, performs no
    other action, and no later click is dispatched. *)
Theorem quit_exits_zero (rest : list string) (s : St) (t : TrayIcon) :
  tray s = Some t -> exit_code s = None ->
  exists s', event_loop ("quit" :: rest) s = Done tt s' /\
    exit_code s' = Some 0 /\ actions s' = actions s ++ [AExit 0] /\
    lookups s' = lookups s /\ windows s' = windows s.
Proof.
  intros Ht He.
  assert (Hq : on_menu_event "quit" s = Done tt (set_exit 0 (log_action (AExit 0) s)))
    by reflexivity.
  cbn [event_loop]. unfold bind at 1, get. rewrite He, Ht.
  unfold bind. rewrite Hq, (event_loop_exited rest _ 0) by reflexivity.
  eexists; repeat split.
Qed.

(** C4: [show] or [hide] with no window "main" open returns normally and
    changes nothing observable: no window operation, no exit request, the
    windows and the tray as they were. *)
Theorem show_hide_missing_main (id : string) (s : St) :
  id = "show" \/ id = "hide" ->
  windows s !! "main" = None ->
  exists s', on_menu_event id s = Done tt s' /\
    actions s' = actions s /\ windows s' = windows s /\
    exit_code s' = exit_code s /\ tray s' = tray s.
Proof. intros [-> | ->] Hw; unfold_host; cbn; rewrite Hw; cbn; eauto 10. Qed.

(** C5: an identifier outside the six fixed ones leaves the state exactly
    as it was. *)
Theorem unknown_id_noop (id : string) (s : St) :
  id ∉ fixed_ids -> on_menu_event id s = Done tt s.
Proof.
  intros Hn. unfold on_menu_event.
  repeat case_match; eqb_to_eq; try (exfalso; apply Hn; set_solver).
  reflexivity.
Qed.

Lemma run_unfold (clicks : list string) (s : St) :
  run clicks s = bind (builder_run clicks) (fun r => expect r "error while running tauri application")
                   (set_plugin LaunchAgent s).
Proof. reflexivity. Qed.

(** C6: when the autostart plugin initializes and the platform provides
    the menu items, the menu and the tray
    icon, startup attaches to the tray a menu of exactly six entries with
    the ids show, hide, click_through, reset_pos, autostart, quit in this
    order, the labels "Show", "Hide", "Toggle Click-Through", "Reset
    Position", "Start at Login", "Quit", each enabled; after any sequence of
    clicks the tray still carries this same menu. *)
Theorem run_builds_six_entries (clicks : list string) (s0 : St) :
  Forall (fun id => menu_item_ok (platform s0) id = true) fixed_ids ->
  menu_ok (platform s0) = true ->
  tray_ok (platform s0) = true ->
  plugin_error (platform s0) = None ->
  exists s' t, run clicks s0 = Done tt s' /\ tray s' = Some t /\
    map item_id (menu_items (tray_menu t)) = fixed_ids /\
    NoDup (map item_id (menu_items (tray_menu t))) /\
    map item_text (menu_items (tray_menu t)) =
      ["Show"; "Hide"; "Toggle Click-Through"; "Reset Position";
       "Start at Login"; "Quit"] /\
    Forall (fun i => item_enabled i = true) (menu_items (tray_menu t)).
Proof.
  intros Hitems Hm Ht Hp.
  repeat (apply Forall_cons in Hitems as [? Hitems]).
  rewrite run_unfold. unfold builder_run, builder_build, bind at 1 2. cbn.
  rewrite Hp. unfold app_run, setup, try_bind.
  unfold menu_item_with_id, menu_with_items, tray_icon_build, bind, ret; cbn.
  repeat match goal with H : _ = true |- _ => rewrite H; cbn end.
  destruct (event_loop_done clicks
    (set_tray (mkTrayIcon (mkMenu
      [mkMenuItem "show" "Show" true None; mkMenuItem "hide" "Hide" true None;
       mkMenuItem "click_through" "Toggle Click-Through" true None;
       mkMenuItem "reset_pos" "Reset Position" true None;
       mkMenuItem "autostart" "Start at Login" true None;
       mkMenuItem "quit" "Quit" true None]))
      (set_plugin LaunchAgent s0))) as [s' Hl].
  rewrite Hl. cbn.
  apply event_loop_tray in Hl.
  do 2 eexists; split; [reflexivity|]; split; [exact Hl|]; cbn.
  repeat split; [|repeat constructor].
  repeat constructor; set_solver.
Qed.

(** C7: startup failures are fatal and abort with a diagnostic before any
    click is handled.  When the autostart plugin initializes, a refused
    menu item, menu or tray icon makes the setup hook fail and the
    process panics with "Failed to setup app: error encountered during
    setup hook: <cause>"; when the plugin fails to initialize, [build]
    fails first and [.expect] panics with "error while running tauri
    application: PluginInitialization(...)". *)
Theorem startup_failure_fatal (clicks : list string) (s0 : St) :
  Exists (fun id => menu_item_ok (platform s0) id = false) fixed_ids \/
  menu_ok (platform s0) = false \/ tray_ok (platform s0) = false ->
  (plugin_error (platform s0) = None ->
   exists e, run clicks s0 =
     Panicked (String.append "Failed to setup app: "
                 (String.append "error encountered during setup hook: "
                    (host_error_msg e)))) /\
  (forall c, plugin_error (platform s0) = Some c ->
   run clicks s0 =
     Panicked (String.append "error while running tauri application: "
                 (host_error_debug (PluginInitialization "autostart" c)))).
Proof.
  intros Hfail. split.
  - intros Hp.
    rewrite run_unfold. unfold builder_run, builder_build, bind at 1 2. cbn.
    rewrite Hp. unfold app_run, setup, try_bind.
    unfold menu_item_with_id, menu_with_items, tray_icon_build, bind, ret, panic; cbn.
    repeat (case_match; simplify_eq/=);
      try (eexists (PlatformRefused _); reflexivity).
    all: exfalso.
    all: destruct Hfail as [Hex | [Hm | Ht]]; [|congruence|congruence].
    all: repeat (apply Exists_cons in Hex as [Hex | Hex]; [congruence|]).
    all: by apply Exists_nil in Hex.
  - intros c Hp. rewrite run_unfold. unfold builder_run, builder_build, bind. cbn.
    by rewrite Hp.
Qed.

(** C8: with the window "main" open, a failing [show] (resp. [hide]) is
    attempted once and its error dropped: the handler returns normally,
    the windows, the exit request and the tray are as they were, exactly
    as when the window is missing; the only trace is the single call. *)
Theorem show_hide_failure_swallowed (id : string) (s : St) (w : Window) :
  windows s !! "main" = Some w ->
  (id = "show" /\ show_fails w = true) \/ (id = "hide" /\ hide_fails w = true) ->
  exists s', on_menu_event id s = Done tt s' /\
    windows s' = windows s /\ exit_code s' = exit_code s /\ tray s' = tray s /\
    actions s' = actions s ++ [if String.eqb id "show" then AShow "main"
                               else AHide "main"].
Proof.
  intros Hw [[-> Hf] | [-> Hf]]; with_main Hw; rewrite Hf; cbn; eauto 10.
Qed.



(** C10: two dispatches of the same identifier from states that agree on
    the window "main" (open with the same state, or both absent) look up
    the same windows, perform the same actions and leave "main" in the
    same state. *)
Theorem dispatch_deterministic (id : string) (s1 s2 : St) :
  windows s1 !! "main" = windows s2 !! "main" ->
  exists s1' s2' ls acts,
    on_menu_event id s1 = Done tt s1' /\ on_menu_event id s2 = Done tt s2' /\
    lookups s1' = lookups s1 ++ ls /\ lookups s2' = lookups s2 ++ ls /\
    actions s1' = actions s1 ++ acts /\ actions s2' = actions s2 ++ acts /\
    windows s1' !! "main" = windows s2' !! "main".
Proof.
  intros Hm. pose proof Hm as Hm'.
  dispatch_cases; try congruence;
  repeat match goal with
  | E1 : windows s1 !! "main" = _, E2 : windows s2 !! "main" = _ |- _ =>
      rewrite E1, E2 in Hm'; clear E1 E2; simplify_eq
  end;
  do 4 eexists; (split; [reflexivity|]); (split; [reflexivity|]);
  repeat split; try app_tail; cbn; rewrite ?lookup_insert_eq, ?lookup_fmap; congruence.
Qed.

(** ** Witnesses: the theorems applied at concrete states *)


Lemma quit_exits_zero_witness :
  (tray (set_tray (mkTrayIcon (mkMenu [])) sample) = Some (mkTrayIcon (mkMenu [])) /\
   exit_code (set_tray (mkTrayIcon (mkMenu [])) sample) = None) /\
  exists s', event_loop ["quit"; "show"] (set_tray (mkTrayIcon (mkMenu [])) sample)
               = Done tt s' /\
    exit_code s' = Some 0 /\
    actions s' = actions (set_tray (mkTrayIcon (mkMenu [])) sample) ++ [AExit 0] /\
    lookups s' = lookups (set_tray (mkTrayIcon (mkMenu [])) sample) /\
    windows s' = windows (set_tray (mkTrayIcon (mkMenu [])) sample).
Proof.
  split; [split; reflexivity|].
  apply (quit_exits_zero ["show"] _ (mkTrayIcon (mkMenu []))); reflexivity.
Defined.

Lemma show_hide_missing_main_witness :
  ("hide" = "show" \/ "hide" = "hide") /\
  windows (start all_ok ∅) !! "main" = None /\
  exists s', on_menu_event "hide" (start all_ok ∅) = Done tt s' /\
    actions s' = actions (start all_ok ∅) /\ windows s' = windows (start all_ok ∅) /\
    exit_code s' = exit_code (start all_ok ∅) /\ tray s' = tray (start all_ok ∅).
Proof.
  split; [right; reflexivity|]. split; [reflexivity|].
  apply (show_hide_missing_main "hide" (start all_ok ∅)); [right | ]; reflexivity.
Defined.

Lemma unknown_id_noop_witness :
  ("tray" ∉ fixed_ids) /\ on_menu_event "tray" sample = Done tt sample.
Proof.
  assert (Hn : "tray" ∉ fixed_ids)
    by (apply (bool_decide_unpack _); vm_compute; exact I).
  split; [exact Hn|]. apply (unknown_id_noop "tray" sample Hn).
Defined.

Lemma run_builds_six_entries_witness :
  (Forall (fun id => menu_item_ok (platform sample) id = true) fixed_ids /\
   menu_ok (platform sample) = true /\ tray_ok (platform sample) = true /\
   plugin_error (platform sample) = None) /\
  exists s' t, run ["hide"; "autostart"] sample = Done tt s' /\ tray s' = Some t /\
    map item_id (menu_items (tray_menu t)) = fixed_ids /\
    NoDup (map item_id (menu_items (tray_menu t))) /\
    map item_text (menu_items (tray_menu t)) =
      ["Show"; "Hide"; "Toggle Click-Through"; "Reset Position";
       "Start at Login"; "Quit"] /\
    Forall (fun i => item_enabled i = true) (menu_items (tray_menu t)).
Proof.
  assert (Hi : Forall (fun id => menu_item_ok (platform sample) id = true) fixed_ids)
    by repeat constructor.
  split; [split; [exact Hi | repeat split]|].
  apply (run_builds_six_entries ["hide"; "autostart"] sample Hi); reflexivity.
Defined.

Lemma startup_failure_fatal_witness :
  (Exists (fun id => menu_item_ok no_tray id = false) fixed_ids \/
   menu_ok no_tray = false \/ tray_ok no_tray = false) /\
  plugin_error no_tray = None /\
  exists e, run ["show"] (start no_tray {[ "main" := main_window ]}) =
    Panicked (String.append "Failed to setup app: "
                (String.append "error encountered during setup hook: "
                   (host_error_msg e))).
Proof.
  assert (Hf : Exists (fun id => menu_item_ok no_tray id = false) fixed_ids \/
               menu_ok no_tray = false \/ tray_ok no_tray = false)
    by (right; right; reflexivity).
  split; [exact Hf|]. split; [reflexivity|].
  apply (proj1 (startup_failure_fatal ["show"] (start no_tray {[ "main" := main_window ]}) Hf)).
  reflexivity.
Defined.

Lemma show_hide_failure_swallowed_witness :
  (windows (start all_ok {[ "main" := failing_main ]}) !! "main" = Some failing_main /\
   ("show" = "show" /\ show_fails failing_main = true)) /\
  exists s', on_menu_event "show" (start all_ok {[ "main" := failing_main ]}) = Done tt s' /\
    windows s' = windows (start all_ok {[ "main" := failing_main ]}) /\
    exit_code s' = exit_code (start all_ok {[ "main" := failing_main ]}) /\
    tray s' = tray (start all_ok {[ "main" := failing_main ]}) /\
    actions s' = actions (start all_ok {[ "main" := failing_main ]}) ++
                 [if String.eqb "show" "show" then AShow "main" else AHide "main"].
Proof.
  split; [split; [reflexivity | split; reflexivity]|].
  apply (show_hide_failure_swallowed "show" _ failing_main);
    [reflexivity | left; split; reflexivity].
Defined.

Lemma dispatch_deterministic_witness :
  windows sample !! "main" =
    windows (start no_tray {[ "main" := main_window; "about" := failing_main ]}) !! "main" /\
  exists s1' s2' ls acts,
    on_menu_event "click_through" sample = Done tt s1' /\
    on_menu_event "click_through"
      (start no_tray {[ "main" := main_window; "about" := failing_main ]}) = Done tt s2' /\
    lookups s1' = lookups sample ++ ls /\
    lookups s2' = lookups (start no_tray {[ "main" := main_window; "about" := failing_main ]})
                  ++ ls /\
    actions s1' = actions sample ++ acts /\
    actions s2' = actions (start no_tray {[ "main" := main_window; "about" := failing_main ]})
                  ++ acts /\
    windows s1' !! "main" = windows s2' !! "main".
Proof.
  split; [reflexivity|].
  apply (dispatch_deterministic "click_through" sample
           (start no_tray {[ "main" := main_window; "about" := failing_main ]}));
    reflexivity.
Defined.

(** ** The event loop over click sequences *)

Lemma spec_dispatch_actions_some (id : string) (w1 w2 : Window) :
  spec_dispatch_actions id (Some w1) = spec_dispatch_actions id (Some w2).
Proof. unfold spec_dispatch_actions; by repeat case_match. Qed.

Lemma main_step_is_some (id : string) (mw : option Window) :
  is_Some (main_step id mw) <-> is_Some mw.
Proof. destruct mw; cbn; split; intros; eauto; by apply is_Some_None in H. Qed.

Lemma spec_dispatch_actions_step (id id' : string) (mw : option Window) :
  spec_dispatch_actions id (main_step id' mw) = spec_dispatch_actions id mw.
Proof. destruct mw; cbn; [apply spec_dispatch_actions_some | reflexivity]. Qed.

Lemma broadcast_of_step (id id' : string) (mw : option Window) :
  broadcast_of id (main_step id' mw) = broadcast_of id mw.
Proof. by destruct mw. Qed.

Lemma deliver_app_fmap (n1 n2 : list (string * unit)) (mw : option Window) :
  deliver n2 <$> (deliver n1 <$> mw) = deliver (n1 ++ n2) <$> mw.
Proof. destruct mw; cbn; by rewrite ?deliver_app. Qed.

(** One click: its effect on the exit request, the tray, the set of open
    windows, the window "main" and the action log. *)
Lemma on_menu_event_step (id : string) (s : St) :
  exists s1, on_menu_event id s = Done tt s1 /\
    exit_code s1 = (if String.eqb id "quit" then Some 0 else exit_code s) /\
    tray s1 = tray s /\
    dom (windows s1) = dom (windows s) /\
    (forall l, l <> "main" ->
       windows s1 !! l = deliver (broadcast_of id (windows s !! "main")) <$> windows s !! l) /\
    windows s1 !! "main" = main_step id (windows s !! "main") /\
    actions s1 = actions s ++ spec_dispatch_actions id (windows s !! "main").
Proof.
  unfold main_step, broadcast_of, notification_of, spec_dispatch_actions;
    dispatch_cases; try (eqb_to_eq; discriminate);
    eexists; (split; [reflexivity|]); cbn;
    repeat split; rewrite ?app_nil_r; try reflexivity;
    try (apply dom_insert_lookup_L; eauto);
    try (by rewrite dom_fmap_L);
    try (intros l Hl; by rewrite ?lookup_insert_ne, ?lookup_fmap, ?deliver_nil_fmap);
    rewrite ?lookup_insert_eq, ?lookup_fmap;
    try match goal with H : windows s !! "main" = _ |- _ => rewrite H end;
    reflexivity.
Qed.

Lemma event_loop_cons (id : string) (rest : list string) (s : St) (t : TrayIcon) :
  tray s = Some t -> exit_code s = None ->
  event_loop (id :: rest) s = bind (on_menu_event id) (fun _ => event_loop rest) s.
Proof. intros Ht He. cbn [event_loop]. unfold bind at 1, get. by rewrite He, Ht. Qed.

(** A click sequence handed to the running tray: the process exits with
    code 0 exactly when [quit] is among the clicks, the tray, the set of
    open windows and every window but "main" stay as they were, "main"
    goes through the clicks up to the first [quit], and the action log
    grows by the dispatch table's actions for those clicks. *)
Lemma event_loop_effect (clicks : list string) (s : St) (t : TrayIcon) :
  tray s = Some t -> exit_code s = None ->
  exists s', event_loop clicks s = Done tt s' /\
    exit_code s' = (if bool_decide ("quit" ∈ clicks) then Some 0 else None) /\
    tray s' = tray s /\
    dom (windows s') = dom (windows s) /\
    (forall l, l <> "main" ->
       windows s' !! l =
         deliver (flat_map (fun id => broadcast_of id (windows s !! "main"))
                           (upto_quit clicks)) <$> windows s !! l) /\
    windows s' !! "main" =
      foldl (fun mw id => main_step id mw) (windows s !! "main") (upto_quit clicks) /\
    actions s' = actions s ++
      flat_map (fun id => spec_dispatch_actions id (windows s !! "main"))
               (upto_quit clicks).
Proof.
  revert s; induction clicks as [|id rest IH]; intros s Ht He.
  - exists s; cbn. rewrite He, app_nil_r.
    repeat split; intros; by rewrite ?deliver_nil_fmap.
  - rewrite (event_loop_cons id rest s t Ht He). unfold bind.
    destruct (on_menu_event_step id s)
      as (s1 & -> & He1 & Ht1 & Hd1 & Ho1 & Hm1 & Ha1).
    cbn [upto_quit]. destruct (String.eqb id "quit") eqn:Hq.
    + apply String.eqb_eq in Hq; subst id.
      rewrite (event_loop_exited rest s1 0 He1).
      exists s1. split; [reflexivity|].
      split; [rewrite He1, bool_decide_eq_true_2; [reflexivity | set_solver]|].
      do 2 (split; [done|]).
      split; [intros l Hl; rewrite Ho1 by done; cbn; by rewrite app_nil_r|].
      split; [exact Hm1|].
      rewrite Ha1; cbn; by rewrite ?app_nil_r.
    + apply String.eqb_neq in Hq.
      destruct (IH s1) as (s' & Hl & He' & Ht' & Hd' & Ho' & Hm' & Ha');
        [congruence | congruence |].
      exists s'. split; [exact Hl|].
      split; [|split; [congruence|split; [congruence|split]]].
      * rewrite He'.
        replace (bool_decide ("quit" ∈ id :: rest))
          with (bool_decide ("quit" ∈ rest)); [reflexivity|].
        apply bool_decide_ext.
        rewrite elem_of_cons. naive_solver.
      * intros l Hl'. rewrite Ho' by done. rewrite Hm1, (Ho1 l Hl'), deliver_app_fmap.
        cbn. do 3 f_equal. apply flat_map_ext. intros x. apply broadcast_of_step.
      * split; [by rewrite Hm', Hm1|].
        rewrite Ha', Ha1, Hm1, <- app_assoc. cbn. do 2 f_equal.
        apply flat_map_ext. intros x. apply spec_dispatch_actions_step.
Qed.

Lemma main_step_some (id : string) (w : Window) :
  exists w1, main_step id (Some w) = Some w1 /\
    inbox w1 = inbox w ++ notification_of id /\
    show_fails w1 = show_fails w /\ hide_fails w1 = hide_fails w /\
    (show_fails w = false -> hide_fails w = false ->
       visible w1 = if String.eqb id "show" then true
                    else if String.eqb id "hide" then false else visible w) /\
    (show_fails w = true -> hide_fails w = true -> visible w1 = visible w).
Proof.
  unfold main_step, notification_of.
  repeat case_match; simplify_eq; try (eqb_to_eq; discriminate);
    eexists; (split; [reflexivity|]); cbn; rewrite ?app_nil_r;
    repeat split; intros; congruence.
Qed.

(** "main" through a sequence of clicks: it receives the notifications
    of the clicks in order, keeps its failure flags, follows the last
    [show]/[hide] when these succeed and keeps its visibility when both
    fail. *)
Lemma main_steps (clicks : list string) (w : Window) :
  exists w', foldl (fun mw id => main_step id mw) (Some w) clicks = Some w' /\
    inbox w' = inbox w ++ flat_map notification_of clicks /\
    show_fails w' = show_fails w /\ hide_fails w' = hide_fails w /\
    (show_fails w = false -> hide_fails w = false ->
       visible w' = visibility_after clicks (visible w)) /\
    (show_fails w = true -> hide_fails w = true -> visible w' = visible w).
Proof.
  revert w; induction clicks as [|id rest IH]; intros w; cbn [foldl flat_map visibility_after].
  - exists w. rewrite app_nil_r. by repeat split.
  - destruct (main_step_some id w) as (w1 & -> & Hi1 & Hs1 & Hh1 & Hv1 & Hv1').
    destruct (IH w1) as (w' & Hf & Hi & Hs & Hh & Hv & Hv').
    exists w'. split; [exact Hf|].
    split; [by rewrite Hi, Hi1, <- app_assoc|].
    split; [congruence|]. split; [congruence|].
    split; intros Hsf Hhf.
    + rewrite Hv, Hv1 by congruence. reflexivity.
    + rewrite Hv', Hv1' by congruence. reflexivity.
Qed.

Lemma event_loop_no_tray (clicks : list string) (s : St) :
  tray s = None -> event_loop clicks s = Done tt s.
Proof.
  intros Ht. induction clicks as [|id rest IH]; cbn; [reflexivity|].
  unfold bind at 1, get. rewrite Ht. by destruct (exit_code s).
Qed.

(** ** Further properties of the code *)

(** [setup] is all or nothing: it never panics; on success its only
    change to the host is the built tray icon, on error the host is left
    exactly as it was (no window, plugin or log touched). *)
Theorem setup_all_or_nothing (s : St) :
  exists r s', setup s = Done r s' /\
    match r with
    | inl _ => exists t, s' = set_tray t s
    | inr _ => s' = s
    end.
Proof.
  unfold setup, try_bind, bind, ret, menu_item_with_id, menu_with_items,
    tray_icon_build.
  repeat (case_match; simplify_eq/=); do 2 eexists; (split; [reflexivity|]);
    cbn; eauto.
Qed.

(** Clicks after the first [quit] never reach the handler: the loop over
    a click sequence equals the loop over its prefix up to that [quit]. *)
Theorem event_loop_upto_quit (clicks : list string) (s : St) :
  event_loop clicks s = event_loop (upto_quit clicks) s.
Proof.
  revert s; induction clicks as [|id rest IH]; intros s; [reflexivity|].
  cbn [upto_quit]. destruct (String.eqb id "quit") eqn:Hq.
  - apply String.eqb_eq in Hq; subst id.
    cbn [event_loop]. unfold bind at 1 3, get, ret.
    destruct (exit_code s); [reflexivity|].
    destruct (tray s) eqn:Ht.
    + assert (Hq : on_menu_event "quit" s =
                     Done tt (set_exit 0 (log_action (AExit 0) s))) by reflexivity.
      unfold bind. rewrite Hq, (event_loop_exited rest _ 0) by reflexivity.
      reflexivity.
    + by rewrite event_loop_no_tray.
  - cbn [event_loop]. unfold bind at 1 3, get.
    destruct (exit_code s); [reflexivity|].
    destruct (tray s); [|apply IH].
    unfold bind. destruct (on_menu_event_frame id s) as (s1 & -> & _).
    apply IH.
Qed.

(** Clicks on the running tray never open or close a window; a window
    other than "main" only receives, in order, the notifications broadcast
    by the clicks up to the first [quit] (none when "main" is not open);
    the tray icon stays as it is. *)
Theorem event_loop_windows_frame (clicks : list string) (s : St) (t : TrayIcon) :
  tray s = Some t -> exit_code s = None ->
  exists s', event_loop clicks s = Done tt s' /\
    dom (windows s') = dom (windows s) /\
    (forall l, l <> "main" ->
       windows s' !! l =
         deliver (flat_map (fun id => broadcast_of id (windows s !! "main"))
                           (upto_quit clicks)) <$> windows s !! l) /\
    tray s' = Some t.
Proof.
  intros Ht He.
  destruct (event_loop_effect clicks s t Ht He) as (s' & Hl & _ & Ht' & Hd & Ho & _).
  exists s'. repeat split; auto. congruence.
Qed.

(** When "main" is open and its [show] and [hide] succeed, its visibility
    after a click sequence is set by the last [show] or [hide] before the
    first [quit] (unchanged when there is none). *)
Theorem event_loop_main_visibility (clicks : list string) (s : St) (t : TrayIcon)
    (w : Window) :
  tray s = Some t -> exit_code s = None -> windows s !! "main" = Some w ->
  show_fails w = false -> hide_fails w = false ->
  exists s' w', event_loop clicks s = Done tt s' /\ windows s' !! "main" = Some w' /\
    visible w' = visibility_after (upto_quit clicks) (visible w).
Proof.
  intros Ht He Hw Hs Hh.
  destruct (event_loop_effect clicks s t Ht He) as (s' & Hl & _ & _ & _ & _ & Hm & _).
  destruct (main_steps (upto_quit clicks) w) as (w' & Hf & _ & _ & _ & Hv & _).
  exists s', w'. rewrite Hm, Hw. auto.
Qed.

(** When "main" has [show] and [hide] both failing, no click sequence
    changes its visibility. *)
Theorem event_loop_main_failing_visibility (clicks : list string) (s : St)
    (t : TrayIcon) (w : Window) :
  tray s = Some t -> exit_code s = None -> windows s !! "main" = Some w ->
  show_fails w = true -> hide_fails w = true ->
  exists s' w', event_loop clicks s = Done tt s' /\ windows s' !! "main" = Some w' /\
    visible w' = visible w.
Proof.
  intros Ht He Hw Hs Hh.
  destruct (event_loop_effect clicks s t Ht He) as (s' & Hl & _ & _ & _ & _ & Hm & _).
  destruct (main_steps (upto_quit clicks) w) as (w' & Hf & _ & _ & _ & _ & Hv).
  exists s', w'. rewrite Hm, Hw. auto.
Qed.

(** With "main" open, after a click sequence it has received exactly one
    notification per [click_through], [reset_pos] and [autostart] click
    before the first [quit], in click order, each with the unit payload. *)
Theorem event_loop_main_notifications (clicks : list string) (s : St)
    (t : TrayIcon) (w : Window) :
  tray s = Some t -> exit_code s = None -> windows s !! "main" = Some w ->
  exists s' w', event_loop clicks s = Done tt s' /\ windows s' !! "main" = Some w' /\
    inbox w' = inbox w ++ flat_map notification_of (upto_quit clicks).
Proof.
  intros Ht He Hw.
  destruct (event_loop_effect clicks s t Ht He) as (s' & Hl & _ & _ & _ & _ & Hm & _).
  destruct (main_steps (upto_quit clicks) w) as (w' & Hf & Hi & _).
  exists s', w'. rewrite Hm, Hw. auto.
Qed.

(** The running process requests exit, with code 0, exactly when the click
    sequence contains [quit]. *)
Theorem event_loop_exit_iff_quit (clicks : list string) (s : St) (t : TrayIcon) :
  tray s = Some t -> exit_code s = None ->
  exists s', event_loop clicks s = Done tt s' /\
    (exit_code s' = Some 0 <-> "quit" ∈ clicks) /\
    ("quit" ∉ clicks -> exit_code s' = None).
Proof.
  intros Ht He.
  destruct (event_loop_effect clicks s t Ht He) as (s' & Hl & Hx & _).
  exists s'. split; [exact Hl|]. rewrite Hx.
  case_bool_decide; split; try split; intros; try done; contradiction.
Qed.

(** The window and process calls made over a click sequence are, in
    order, the dispatch table's actions for each click up to the first
    [quit]; whether "main" is open is decided once, as no click opens or
    closes it. *)
Theorem event_loop_actions (clicks : list string) (s : St) (t : TrayIcon) :
  tray s = Some t -> exit_code s = None ->
  exists s', event_loop clicks s = Done tt s' /\
    actions s' = actions s ++
      flat_map (fun id => spec_dispatch_actions id (windows s !! "main"))
               (upto_quit clicks).
Proof.
  intros Ht He.
  destruct (event_loop_effect clicks s t Ht He) as (s' & Hl & _ & _ & _ & _ & _ & Ha).
  eauto.
Qed.

(** ** Witnesses of the further properties *)

Lemma event_loop_windows_frame_witness :
  (tray running_two = Some (mkTrayIcon (mkMenu [])) /\ exit_code running_two = None) /\
  exists s', event_loop ["hide"; "click_through"; "quit"] running_two = Done tt s' /\
    dom (windows s') = dom (windows running_two) /\
    (forall l, l <> "main" ->
       windows s' !! l =
         deliver (flat_map (fun id => broadcast_of id (windows running_two !! "main"))
                           (upto_quit ["hide"; "click_through"; "quit"]))
           <$> windows running_two !! l) /\
    tray s' = Some (mkTrayIcon (mkMenu [])).
Proof.
  split; [split; reflexivity|].
  apply (event_loop_windows_frame _ running_two (mkTrayIcon (mkMenu []))); reflexivity.
Defined.

Lemma event_loop_main_visibility_witness :
  (tray running = Some (mkTrayIcon (mkMenu [])) /\ exit_code running = None /\
   windows running !! "main" = Some main_window /\
   show_fails main_window = false /\ hide_fails main_window = false) /\
  exists s' w', event_loop ["show"; "reset_pos"; "hide"] running = Done tt s' /\
    windows s' !! "main" = Some w' /\
    visible w' = visibility_after (upto_quit ["show"; "reset_pos"; "hide"])
                                  (visible main_window).
Proof.
  split; [repeat split|].
  apply (event_loop_main_visibility _ running (mkTrayIcon (mkMenu [])) main_window);
    reflexivity.
Defined.

Lemma event_loop_main_failing_visibility_witness :
  (tray running_failing = Some (mkTrayIcon (mkMenu [])) /\
   exit_code running_failing = None /\
   windows running_failing !! "main" = Some failing_main /\
   show_fails failing_main = true /\ hide_fails failing_main = true) /\
  exists s' w', event_loop ["show"; "hide"; "show"] running_failing = Done tt s' /\
    windows s' !! "main" = Some w' /\ visible w' = visible failing_main.
Proof.
  split; [repeat split|].
  apply (event_loop_main_failing_visibility _ running_failing
           (mkTrayIcon (mkMenu [])) failing_main); reflexivity.
Defined.

Lemma event_loop_main_notifications_witness :
  (tray running = Some (mkTrayIcon (mkMenu [])) /\ exit_code running = None /\
   windows running !! "main" = Some main_window) /\
  exists s' w',
    event_loop ["autostart"; "show"; "click_through"; "quit"; "reset_pos"] running
      = Done tt s' /\
    windows s' !! "main" = Some w' /\
    inbox w' = inbox main_window ++
      flat_map notification_of
        (upto_quit ["autostart"; "show"; "click_through"; "quit"; "reset_pos"]).
Proof.
  split; [repeat split|].
  apply (event_loop_main_notifications _ running (mkTrayIcon (mkMenu [])) main_window);
    reflexivity.
Defined.

Lemma event_loop_exit_iff_quit_witness :
  (tray running = Some (mkTrayIcon (mkMenu [])) /\ exit_code running = None) /\
  exists s', event_loop ["show"; "quit"] running = Done tt s' /\
    (exit_code s' = Some 0 <-> "quit" ∈ ["show"; "quit"]) /\
    ("quit" ∉ ["show"; "quit"] -> exit_code s' = None).
Proof.
  split; [split; reflexivity|].
  apply (event_loop_exit_iff_quit _ running (mkTrayIcon (mkMenu []))); reflexivity.
Defined.

Lemma event_loop_actions_witness :
  (tray running = Some (mkTrayIcon (mkMenu [])) /\ exit_code running = None) /\
  exists s', event_loop ["hide"; "tray"; "autostart"] running = Done tt s' /\
    actions s' = actions running ++
      flat_map (fun id => spec_dispatch_actions id (windows running !! "main"))
               (upto_quit ["hide"; "tray"; "autostart"]).
Proof.
  split; [split; reflexivity|].
  apply (event_loop_actions _ running (mkTrayIcon (mkMenu []))); reflexivity.
Defined.
